(** * Catálogo de Vasos: the state logic of [src/App.js]

    The [App] component keeps four pieces of React state (the list of pots
    and three text buffers) and has two event handlers, [adicionarVaso] and
    [removerVaso].  This file embeds that logic and proves properties of
    it.

    - JavaScript strings are sequences of UTF-16 code units ([JSString.t]).
    - A handler does not mutate the state: it queues state updates
      ([setVasos], [setNomeVaso], ...) and calls into the platform
      ([Alert.alert], [Keyboard.dismiss]).  A handler is embedded as the
      list of commands it issues, in order; [commit] then applies the
      queued updates to the state, as React does before the next render.
    - [Date.now()] is an input of [adicionarVaso]. *)

From Stdlib Require Import String Ascii List NArith ZArith Bool Lia.
From Stdlib Require Import Decimal DecimalZ.
Import ListNotations.

Local Open Scope N_scope.

(** ** JavaScript strings *)

Module JSString.

(** A string is its sequence of UTF-16 code units. *)
Definition t := list N.

(** [a === b] on strings. *)
Fixpoint eqb (a b : t) : bool :=
  match a, b with
  | [], [] => true
  | x :: a', y :: b' => N.eqb x y && eqb a' b'
  | _, _ => false
  end.

(** ECMAScript [WhiteSpace]: TAB, VT, FF, ZWNBSP and the code points of
    category Zs. *)
Definition isWhiteSpace (c : N) : bool :=
  (c =? 0x09) || (c =? 0x0B) || (c =? 0x0C) || (c =? 0x20) || (c =? 0xA0)
  || (c =? 0x1680) || ((0x2000 <=? c) && (c <=? 0x200A))
  || (c =? 0x202F) || (c =? 0x205F) || (c =? 0x3000) || (c =? 0xFEFF).

(** ECMAScript [LineTerminator]: LF, CR, LS, PS. *)
Definition isLineTerminator (c : N) : bool :=
  (c =? 0x0A) || (c =? 0x0D) || (c =? 0x2028) || (c =? 0x2029).

(** The code units [String.prototype.trim] strips. *)
Definition isTrimmable (c : N) : bool := isWhiteSpace c || isLineTerminator c.

Fixpoint trimStart (s : t) : t :=
  match s with
  | [] => []
  | c :: s' => if isTrimmable c then trimStart s' else s
  end.

Definition trimEnd (s : t) : t := List.rev (trimStart (List.rev s)).

(** [s.trim()] *)
Definition trim (s : t) : t := trimEnd (trimStart s).

(** [s.split(sep)] for a separator of one code unit: the fields between
    the occurrences of [sep]; a string with no separator, the empty one
    included, gives one field. *)
Fixpoint split (sep : N) (s : t) : list t :=
  match s with
  | [] => [[]]
  | c :: s' =>
      if c =? sep then [] :: split sep s'
      else match split sep s' with
           | [] => [[c]]
           | field :: fields => (c :: field) :: fields
           end
  end.

(** [ToBoolean] on a string: only the empty string is falsy. *)
Definition toBoolean (s : t) : bool :=
  match s with
  | [] => false
  | _ :: _ => true
  end.

(** A literal whose characters are all below U+0100, one code unit per
    byte of the Rocq string. *)
Definition lit (s : string) : t := map N_of_ascii (list_ascii_of_string s).

Definition comma : N := 0x2C.

End JSString.

(** ** [Number.prototype.toString] on integers *)

Fixpoint digits (d : Decimal.uint) : JSString.t :=
  match d with
  | Decimal.Nil => []
  | Decimal.D0 d' => 0x30 :: digits d'
  | Decimal.D1 d' => 0x31 :: digits d'
  | Decimal.D2 d' => 0x32 :: digits d'
  | Decimal.D3 d' => 0x33 :: digits d'
  | Decimal.D4 d' => 0x34 :: digits d'
  | Decimal.D5 d' => 0x35 :: digits d'
  | Decimal.D6 d' => 0x36 :: digits d'
  | Decimal.D7 d' => 0x37 :: digits d'
  | Decimal.D8 d' => 0x38 :: digits d'
  | Decimal.D9 d' => 0x39 :: digits d'
  end.

(** [n.toString()] for an integer [n] in the range of time values
    (|n| <= 8.64e15), where the result is the plain decimal numeral. *)
Definition Number_toString (n : Z) : JSString.t :=
  match Z.to_int n with
  | Decimal.Pos d => digits d
  | Decimal.Neg d => 0x2D :: digits d
  end.

(** ** The pot record *)

Module Vaso.

(** The object literal built in [adicionarVaso]. *)
Record t : Type := mk {
  id : JSString.t;
  nome : JSString.t;
  local : JSString.t;
  flores : list JSString.t
}.

End Vaso.

(** ** Component state: the four [useState] cells *)

Record AppState : Type := mkState {
  vasos : list Vaso.t;
  nomeVaso : JSString.t;
  localVaso : JSString.t;
  flores : JSString.t
}.

(** [useState([])], [useState('')] three times. *)
Definition initial : AppState :=
  {| vasos := []; nomeVaso := []; localVaso := []; flores := [] |}.

(** ** Commands a handler issues *)

Inductive ButtonStyle : Type := default | cancel | destructive.

(** The state setters take a value, or (for [setVasos]) an updater
    function of the previous value.  [Alert_alert] carries the buttons
    given to [Alert.alert], each with the commands of its [onPress]. *)
Inductive Cmd : Type :=
| setVasos (updater : list Vaso.t -> list Vaso.t)
| setNomeVaso (value : JSString.t)
| setLocalVaso (value : JSString.t)
| setFlores (value : JSString.t)
| Alert_alert (title message : string) (buttons : list AlertButton)
| Keyboard_dismiss
with AlertButton : Type :=
| mkButton (text : string) (onPress : option (list Cmd)) (style : ButtonStyle).

Definition onPress (b : AlertButton) : list Cmd :=
  match b with
  | mkButton _ (Some handler) _ => handler
  | mkButton _ None _ => []
  end.

(** The effect of one command on the state; calls into the platform leave
    it alone. *)
Definition apply (s : AppState) (c : Cmd) : AppState :=
  match c with
  | setVasos updater =>
      {| vasos := updater (vasos s); nomeVaso := nomeVaso s;
         localVaso := localVaso s; flores := flores s |}
  | setNomeVaso value =>
      {| vasos := vasos s; nomeVaso := value;
         localVaso := localVaso s; flores := flores s |}
  | setLocalVaso value =>
      {| vasos := vasos s; nomeVaso := nomeVaso s;
         localVaso := value; flores := flores s |}
  | setFlores value =>
      {| vasos := vasos s; nomeVaso := nomeVaso s;
         localVaso := localVaso s; flores := value |}
  | Alert_alert _ _ _ => s
  | Keyboard_dismiss => s
  end.

(** The queued updates of a handler run in the order they were queued. *)
Definition commit (cmds : list Cmd) (s : AppState) : AppState :=
  fold_left apply cmds s.

Definition isAlert (c : Cmd) : bool :=
  match c with
  | Alert_alert _ _ _ => true
  | _ => false
  end.

(** Did the handler show an alert? *)
Definition alerted (cmds : list Cmd) : bool := existsb isAlert cmds.

(** ** The handlers *)

(** The [flores] field of the new record (line 58). *)
Definition parseFlores (raw : JSString.t) : list JSString.t :=
  if JSString.toBoolean (JSString.trim raw)
  then map JSString.trim (JSString.split JSString.comma raw)
  else [].

(** The object [novoVaso] (lines 52-59). *)
Definition novoVaso (s : AppState) (now : Z) : Vaso.t :=
  {| Vaso.id := Number_toString now;
     Vaso.nome := nomeVaso s;
     Vaso.local := localVaso s;
     Vaso.flores := parseFlores (flores s) |}.

(** [adicionarVaso], run in a render whose state is [s], with [now] the
    value [Date.now()] returns. *)
Definition adicionarVaso (s : AppState) (now : Z) : list Cmd :=
  if JSString.eqb (JSString.trim (nomeVaso s)) []
     || JSString.eqb (JSString.trim (localVaso s)) []
  then
    [Alert_alert "Atenção" "Por favor, preencha o nome e o local do vaso." []]
  else
    [setVasos (fun vasosAtuais => novoVaso s now :: vasosAtuais);
     setNomeVaso [];
     setLocalVaso [];
     setFlores [];
     Keyboard_dismiss].

(** The updater of the confirmed removal (lines 91-95). *)
Definition semVaso (id : JSString.t) (vasosAtuais : list Vaso.t) : list Vaso.t :=
  filter (fun vaso => negb (JSString.eqb (Vaso.id vaso) id)) vasosAtuais.

(** [removerVaso(id)]: one alert with two buttons. *)
Definition removerVaso (id : JSString.t) : list Cmd :=
  [Alert_alert "Remover Vaso" "Você tem certeza que deseja remover este vaso?"
     [mkButton "Cancelar" None cancel;
      mkButton "Sim, Remover" (Some [setVasos (semVaso id)]) destructive]].

(** The commands run when the user presses button number [k] of the alerts
    in [cmds]. *)
Definition press (k : nat) (cmds : list Cmd) : list Cmd :=
  flat_map
    (fun c =>
       match c with
       | Alert_alert _ _ buttons =>
           match nth_error buttons k with
           | Some b => onPress b
           | None => []
           end
       | _ => []
       end)
    cmds.

(** ** The operations of the catalog *)

(** Pressing "Adicionar Vaso" at time [now]. *)
Definition submit (s : AppState) (now : Z) : AppState :=
  commit (adicionarVaso s now) s.

(** Pressing "Remover" on the row of [id], then "Sim, Remover". *)
Definition remove (id : JSString.t) (s : AppState) : AppState :=
  commit (press 1 (removerVaso id)) (commit (removerVaso id) s).

(** Pressing "Remover" on the row of [id], then "Cancelar". *)
Definition cancelRemove (id : JSString.t) (s : AppState) : AppState :=
  commit (press 0 (removerVaso id)) (commit (removerVaso id) s).

(** ** User events *)

Inductive Event : Type :=
| ChangeNome (text : JSString.t)
| ChangeLocal (text : JSString.t)
| ChangeFlores (text : JSString.t)
| PressAdicionar (now : Z)
| ConfirmRemover (id : JSString.t)
| CancelRemover (id : JSString.t).

Definition step (s : AppState) (e : Event) : AppState :=
  match e with
  | ChangeNome text => commit [setNomeVaso text] s
  | ChangeLocal text => commit [setLocalVaso text] s
  | ChangeFlores text => commit [setFlores text] s
  | PressAdicionar now => submit s now
  | ConfirmRemover id => remove id s
  | CancelRemover id => cancelRemove id s
  end.

Definition run (events : list Event) : AppState := fold_left step events initial.

(** The states the application can be in. *)
Definition reachable (s : AppState) : Prop := exists events, s = run events.

(** Typing the three fields, then pressing "Adicionar Vaso". *)
Definition add (name location flowersRaw : JSString.t) (now : Z) : list Event :=
  [ChangeNome name; ChangeLocal location; ChangeFlores flowersRaw;
   PressAdicionar now].

(** The three buffers, for frame statements. *)
Definition buffers (s : AppState) : JSString.t * JSString.t * JSString.t :=
  (nomeVaso s, localVaso s, flores s).

(** ** Observations used in the statements *)

(** The first code unit, if there is one, is not trimmable. *)
Definition startsClean (s : JSString.t) : bool :=
  match s with
  | [] => true
  | c :: _ => negb (JSString.isTrimmable c)
  end.

(** A string with no trimmable code unit at either end. *)
Definition isTrimmed (s : JSString.t) : bool :=
  startsClean s && startsClean (List.rev s).

(** A string of white space and line terminators only (the empty string
    included). *)
Definition isBlank (s : JSString.t) : bool := forallb JSString.isTrimmable s.

(** [fields.join(sep)] for a separator of one code unit. *)
Fixpoint join (sep : N) (fields : list JSString.t) : JSString.t :=
  match fields with
  | [] => []
  | [field] => field
  | field :: rest => field ++ sep :: join sep rest
  end.

(** How many records of the catalog carry [id]. *)
Definition countId (id : JSString.t) (catalog : list Vaso.t) : nat :=
  List.length (filter (fun vaso => JSString.eqb (Vaso.id vaso) id) catalog).

Definition ids (catalog : list Vaso.t) : list JSString.t := map Vaso.id catalog.

(** Both required fields are non-empty after trimming. *)
Definition formOk (s : AppState) : Prop :=
  JSString.trim (nomeVaso s) <> [] /\ JSString.trim (localVaso s) <> [].

(** ** The list on screen (lines 152-177) *)

(** [fields.join(sep)] for any separator. *)
Fixpoint joinWith (sep : JSString.t) (fields : list JSString.t) : JSString.t :=
  match fields with
  | [] => []
  | [field] => field
  | field :: rest => field ++ sep ++ joinWith sep rest
  end.

(** The elements [renderItem] builds, each with the name of its style;
    a [TouchableOpacity] carries the commands its [onPress] issues. *)
#[warnings="-register-all"]
Inductive Element : Type :=
| Text (style : string) (content : JSString.t)
| View (style : string) (children : list Element)
| TouchableOpacity (onPress : list Cmd) (children : list Element).

(** [renderItem] (lines 155-172).  The flowers line is there only when
    [item.flores.length > 0]. *)
Definition renderItem (item : Vaso.t) : Element :=
  View "vasoItem"
    [View "vasoInfo"
       ([Text "vasoNome" (Vaso.nome item);
         Text "vasoLocal" (JSString.lit "Local: " ++ Vaso.local item)]
        ++ (if (0 <? List.length (Vaso.flores item))%nat
            then [Text "vasoFlores"
                    (JSString.lit "Flores: "
                     ++ joinWith (JSString.lit ", ") (Vaso.flores item))]
            else []));
     TouchableOpacity (removerVaso (Vaso.id item))
       [Text "removeButton" (JSString.lit "Remover")]].

(** [keyExtractor] (line 154). *)
Definition keyExtractor (item : Vaso.t) : JSString.t := Vaso.id item.

(** [ListEmptyComponent] (lines 174-176). *)
Definition ListEmptyComponent : Element :=
  Text "emptyText" (JSString.lit "Nenhum vaso cadastrado ainda.").

(** What [FlatList] lays out: the empty component when [data] is empty,
    and otherwise one row per item, in order, under the key
    [keyExtractor] gives it. *)
Definition FlatList (data : list Vaso.t) : list (option JSString.t * Element) :=
  match data with
  | [] => [(None, ListEmptyComponent)]
  | _ :: _ => map (fun item => (Some (keyExtractor item), renderItem item)) data
  end.

(** The contents of the [Text] elements of a given style, in order. *)
Fixpoint textsOf (style : string) (e : Element) : list JSString.t :=
  match e with
  | Text st content => if String.eqb st style then [content] else []
  | View _ children => flat_map (textsOf style) children
  | TouchableOpacity _ children => flat_map (textsOf style) children
  end.

(** The [onPress] handlers of the touchable elements, in order. *)
Fixpoint pressables (e : Element) : list (list Cmd) :=
  match e with
  | Text _ _ => []
  | View _ children => flat_map pressables children
  | TouchableOpacity handler children => handler :: flat_map pressables children
  end.

(** ** Observations on runs *)

(** The clock readings at the presses of "Adicionar Vaso", in order. *)
Fixpoint readings (events : list Event) : list Z :=
  match events with
  | [] => []
  | PressAdicionar now :: rest => now :: readings rest
  | _ :: rest => readings rest
  end.

(** A record as [adicionarVaso] builds them: name and location not blank,
    every flower token trimmed and free of commas. *)
Definition nomeadoOk (v : Vaso.t) : Prop :=
  isBlank (Vaso.nome v) = false /\ isBlank (Vaso.local v) = false.

Definition floresOk (v : Vaso.t) : Prop :=
  forall token, In token (Vaso.flores v) ->
    isTrimmed token = true /\ ~ In JSString.comma token.

(** ** Sample inputs *)

Definition Rosa : JSString.t := JSString.lit "Rosa".
Definition Lirio : JSString.t := [0x4C; 0xED; 0x72; 0x69; 0x6F].
Definition Tulipa : JSString.t := JSString.lit "Tulipa".

(** The text of the flowers field in the example of the parsing rule:
    Rosa, Lirio (with i acute), an empty field and Tulipa. *)
Definition floresExemplo : JSString.t :=
  JSString.lit "Rosa, " ++ Lirio ++ JSString.lit " , , Tulipa".

(** A form filled in with the example, over an empty catalog. *)
Definition formExemplo : AppState :=
  {| vasos := [];
     nomeVaso := JSString.lit "Vaso 1";
     localVaso := JSString.lit "Sala";
     flores := floresExemplo |}.

(** A form whose name and location carry surrounding spaces. *)
Definition formEspacos : AppState :=
  {| vasos := [];
     nomeVaso := JSString.lit " Vaso ";
     localVaso := JSString.lit " Sala ";
     flores := [] |}.

(** A form with a blank name, the other two fields filled in. *)
Definition formSemNome : AppState :=
  {| vasos := [];
     nomeVaso := JSString.lit "  ";
     localVaso := JSString.lit "Sala";
     flores := Rosa |}.

(** A clock reading, in milliseconds since the epoch. *)
Definition t0 : Z := 1700000000000%Z.

(** One pot added at [t0], and the form filled in for a second one. *)
Definition segundoPreenchido : list Event :=
  add (JSString.lit "Vaso A") (JSString.lit "Sala") Rosa t0
  ++ [ChangeNome (JSString.lit "Vaso B");
      ChangeLocal (JSString.lit "Varanda");
      ChangeFlores Tulipa].

(** Two pots added while the clock reads the same millisecond. *)
Definition doisNoMesmoInstante : list Event :=
  segundoPreenchido ++ [PressAdicionar t0].

(** Three pots added at three different clock readings. *)
Definition tresVasos : list Event :=
  add (JSString.lit "Vaso A") (JSString.lit "Sala") Rosa t0
  ++ add (JSString.lit "Vaso B") (JSString.lit "Varanda") Tulipa (t0 + 1)
  ++ add (JSString.lit "Vaso C") (JSString.lit "Quarto") [] (t0 + 2).

(** * Properties *)

(** ** Strings *)

Module JSStringFacts.
Import JSString.

Lemma eqb_eq (a b : t) : eqb a b = true <-> a = b.
Proof.
  revert b; induction a as [|x a IH]; intros [|y b]; simpl; split;
    try congruence; try reflexivity.
  - rewrite andb_true_iff, N.eqb_eq, IH. intros [-> ->]; reflexivity.
  - intros E; injection E as -> ->. rewrite N.eqb_refl. simpl.
    apply IH; reflexivity.
Qed.

Lemma eqb_refl (a : t) : eqb a a = true.
Proof. apply eqb_eq; reflexivity. Qed.

Lemma eqb_neq (a b : t) : eqb a b = false <-> a <> b.
Proof.
  rewrite <- eqb_eq. destruct (eqb a b); split; congruence.
Qed.

Lemma eqb_nil_r (a : t) : eqb a [] = negb (toBoolean a).
Proof. destruct a; reflexivity. Qed.

(** *** Trimming *)

Lemma trimStart_clean (s : t) : startsClean (trimStart s) = true.
Proof.
  induction s as [|c s IH]; simpl; [reflexivity|].
  destruct (isTrimmable c) eqn:E; [exact IH|]. simpl. now rewrite E.
Qed.

Lemma trimStart_nil_iff (s : t) : trimStart s = [] <-> isBlank s = true.
Proof.
  unfold isBlank.
  induction s as [|c s IH]; simpl; [tauto|].
  destruct (isTrimmable c); simpl; [exact IH|]. split; discriminate.
Qed.

Lemma trimStart_of_clean (s : t) : startsClean s = true -> trimStart s = s.
Proof.
  destruct s as [|c s]; simpl; [reflexivity|].
  destruct (isTrimmable c); [discriminate|reflexivity].
Qed.

Lemma trimStart_app_clean (l r : t) (c : N) :
  isTrimmable c = false -> trimStart (l ++ c :: r) = trimStart l ++ c :: r.
Proof.
  intros Hc. induction l as [|x l IH]; simpl.
  - now rewrite Hc.
  - destruct (isTrimmable x); [exact IH|reflexivity].
Qed.

Lemma trimEnd_cons_clean (c : N) (s : t) :
  isTrimmable c = false -> trimEnd (c :: s) = c :: trimEnd s.
Proof.
  intros Hc. unfold trimEnd. simpl.
  rewrite trimStart_app_clean by exact Hc.
  rewrite rev_app_distr. reflexivity.
Qed.

Lemma trimEnd_clean_start (s : t) :
  startsClean s = true -> startsClean (trimEnd s) = true.
Proof.
  destruct s as [|c s]; [reflexivity|]. simpl.
  destruct (isTrimmable c) eqn:E; [discriminate|]. intros _.
  rewrite trimEnd_cons_clean by exact E. simpl. now rewrite E.
Qed.

Lemma trim_isTrimmed (s : t) : isTrimmed (trim s) = true.
Proof.
  unfold isTrimmed, trim. apply andb_true_iff; split.
  - apply trimEnd_clean_start, trimStart_clean.
  - unfold trimEnd. rewrite rev_involutive. apply trimStart_clean.
Qed.

Lemma isBlank_rev (s : t) : isBlank (List.rev s) = isBlank s.
Proof.
  unfold isBlank. destruct (forallb isTrimmable s) eqn:E.
  - rewrite forallb_forall in *. intros x Hx. apply E, in_rev, Hx.
  - destruct (forallb isTrimmable (List.rev s)) eqn:E'; [|reflexivity].
    rewrite <- E. symmetry. rewrite forallb_forall in *.
    intros x Hx. apply E'. rewrite <- in_rev. exact Hx.
Qed.

(** [s.trim()] is empty exactly when [s] is blank. *)
Lemma trim_nil_iff (s : t) : trim s = [] <-> isBlank s = true.
Proof.
  unfold trim, trimEnd. split.
  - intros H. apply (f_equal (@List.rev N)) in H.
    rewrite rev_involutive in H. simpl in H.
    apply trimStart_nil_iff in H. rewrite isBlank_rev in H.
    pose proof (trimStart_clean s) as Hc.
    destruct (trimStart s) as [|c r] eqn:E.
    + apply trimStart_nil_iff, E.
    + simpl in Hc. unfold isBlank in H. simpl in H.
      destruct (isTrimmable c); discriminate.
  - intros H. apply trimStart_nil_iff in H. rewrite H. reflexivity.
Qed.

Lemma trim_of_trimmed (s : t) : isTrimmed s = true -> trim s = s.
Proof.
  unfold isTrimmed, trim, trimEnd. intros H.
  apply andb_true_iff in H as [H1 H2].
  rewrite (trimStart_of_clean s H1), (trimStart_of_clean _ H2).
  apply rev_involutive.
Qed.

Lemma trim_idempotent (s : t) : trim (trim s) = trim s.
Proof. apply trim_of_trimmed, trim_isTrimmed. Qed.

(** A trimmed string is empty or not blank. *)
Lemma trimmed_blank_nil (s : t) :
  isTrimmed s = true -> isBlank s = true -> s = [].
Proof.
  intros Ht Hb. rewrite <- (trim_of_trimmed s Ht). apply trim_nil_iff, Hb.
Qed.

(** *** Splitting *)

Lemma split_not_nil (sep : N) (s : t) : split sep s <> [].
Proof.
  induction s as [|c s IH]; simpl; [discriminate|].
  destruct (c =? sep); [discriminate|].
  destruct (split sep s); [contradiction|discriminate].
Qed.

(** One field more than there are separators: no field is dropped. *)
Lemma split_length (sep : N) (s : t) :
  List.length (split sep s) = S (count_occ N.eq_dec s sep).
Proof.
  induction s as [|c s IH]; simpl; [reflexivity|].
  destruct (N.eqb_spec c sep) as [->|Hne].
  - destruct (N.eq_dec sep sep); [|contradiction]. simpl. now rewrite IH.
  - destruct (N.eq_dec c sep); [contradiction|].
    pose proof (split_not_nil sep s) as Hnn.
    destruct (split sep s); [contradiction|]. exact IH.
Qed.

(** Joining the fields with the separator gives the string back. *)
Lemma join_split (sep : N) (s : t) : join sep (split sep s) = s.
Proof.
  induction s as [|c s IH]; simpl; [reflexivity|].
  pose proof (split_not_nil sep s) as Hnn.
  destruct (N.eqb_spec c sep) as [->|Hne].
  - destruct (split sep s) as [|f fs]; [contradiction|].
    simpl in *. now rewrite IH.
  - destruct (split sep s) as [|f fs]; [contradiction|].
    destruct fs; simpl in *; now rewrite IH.
Qed.

(** No field contains the separator. *)
Lemma split_no_sep (sep : N) (s field : t) :
  In field (split sep s) -> ~ In sep field.
Proof.
  revert field. induction s as [|c s IH]; simpl; intros field H.
  - destruct H as [<-|[]]. intros [].
  - pose proof (split_not_nil sep s) as Hnn.
    destruct (N.eqb_spec c sep) as [->|Hne].
    + destruct H as [<-|H]; [intros []|now apply IH].
    + destruct (split sep s) as [|f fs]; [contradiction|].
      destruct H as [<-|H].
      * intros [E|Hin]; [congruence|]. apply (IH f); [now left|exact Hin].
      * apply IH. now right.
Qed.

End JSStringFacts.

(** ** Identifiers *)

Lemma digits_inj (d e : Decimal.uint) : digits d = digits e -> d = e.
Proof.
  revert e; induction d; intros [] H; simpl in H;
    try discriminate; try reflexivity;
    injection H as H; f_equal; now apply IHd.
Qed.

Lemma digits_no_minus (d : Decimal.uint) (r : JSString.t) :
  digits d <> 0x2D :: r.
Proof. destruct d; simpl; discriminate. Qed.

(** Different clock readings give different identifiers. *)
Lemma Number_toString_inj (a b : Z) :
  Number_toString a = Number_toString b -> a = b.
Proof.
  unfold Number_toString. intros H. apply DecimalZ.to_int_inj.
  destruct (Z.to_int a) as [d|d], (Z.to_int b) as [e|e].
  - f_equal. now apply digits_inj.
  - exfalso. exact (digits_no_minus _ _ H).
  - exfalso. symmetry in H. exact (digits_no_minus _ _ H).
  - injection H as H. f_equal. now apply digits_inj.
Qed.

(** ** The two handlers as state transformers *)

Lemma guard_false_iff (s : AppState) :
  JSString.eqb (JSString.trim (nomeVaso s)) []
  || JSString.eqb (JSString.trim (localVaso s)) [] = false
  <-> formOk s.
Proof.
  unfold formOk. rewrite orb_false_iff, !JSStringFacts.eqb_neq. tauto.
Qed.

Lemma guard_true_iff (s : AppState) :
  JSString.eqb (JSString.trim (nomeVaso s)) []
  || JSString.eqb (JSString.trim (localVaso s)) [] = true
  <-> JSString.trim (nomeVaso s) = [] \/ JSString.trim (localVaso s) = [].
Proof. rewrite orb_true_iff, !JSStringFacts.eqb_eq. tauto. Qed.

(** A submit with both required fields filled in. *)
Lemma submit_ok (s : AppState) (now : Z) :
  formOk s ->
  submit s now =
  {| vasos := novoVaso s now :: vasos s;
     nomeVaso := []; localVaso := []; flores := [] |}.
Proof.
  intros H. apply guard_false_iff in H.
  unfold submit, adicionarVaso. rewrite H. reflexivity.
Qed.

(** A submit with a required field missing. *)
Lemma submit_rejected (s : AppState) (now : Z) :
  JSString.trim (nomeVaso s) = [] \/ JSString.trim (localVaso s) = [] ->
  submit s now = s.
Proof.
  intros H. apply guard_true_iff in H.
  unfold submit, adicionarVaso. rewrite H. reflexivity.
Qed.

Lemma alerted_adicionarVaso (s : AppState) (now : Z) :
  alerted (adicionarVaso s now) =
  JSString.eqb (JSString.trim (nomeVaso s)) []
  || JSString.eqb (JSString.trim (localVaso s)) [].
Proof.
  unfold adicionarVaso.
  destruct (JSString.eqb (JSString.trim (nomeVaso s)) []
            || JSString.eqb (JSString.trim (localVaso s)) []); reflexivity.
Qed.

(** A confirmed removal filters the catalog and touches nothing else. *)
Lemma remove_eq (id : JSString.t) (s : AppState) :
  remove id s =
  {| vasos := semVaso id (vasos s);
     nomeVaso := nomeVaso s; localVaso := localVaso s; flores := flores s |}.
Proof. reflexivity. Qed.

Lemma cancelRemove_eq (id : JSString.t) (s : AppState) : cancelRemove id s = s.
Proof. reflexivity. Qed.

(** ** The filter of [removerVaso] *)

Section SemVaso.

Variable id : JSString.t.

Lemma semVaso_In (v : Vaso.t) (catalog : list Vaso.t) :
  In v (semVaso id catalog) <-> In v catalog /\ Vaso.id v <> id.
Proof.
  unfold semVaso. rewrite filter_In, negb_true_iff, JSStringFacts.eqb_neq.
  tauto.
Qed.

Lemma semVaso_app (l r : list Vaso.t) :
  semVaso id (l ++ r) = semVaso id l ++ semVaso id r.
Proof. apply filter_app. Qed.

Lemma semVaso_absent (catalog : list Vaso.t) :
  (forall v, In v catalog -> Vaso.id v <> id) -> semVaso id catalog = catalog.
Proof.
  induction catalog as [|w catalog IH]; intros H; simpl; [reflexivity|].
  assert (Hw : JSString.eqb (Vaso.id w) id = false)
    by (apply JSStringFacts.eqb_neq, H; now left).
  rewrite Hw. simpl. f_equal. apply IH. intros v Hv. apply H. now right.
Qed.

Lemma semVaso_idempotent (catalog : list Vaso.t) :
  semVaso id (semVaso id catalog) = semVaso id catalog.
Proof.
  apply semVaso_absent. intros v Hv. now apply semVaso_In in Hv.
Qed.

Lemma semVaso_length (catalog : list Vaso.t) :
  (List.length (semVaso id catalog) + countId id catalog)%nat
  = List.length catalog.
Proof.
  unfold semVaso, countId.
  induction catalog as [|w catalog IH]; simpl; [reflexivity|].
  destruct (JSString.eqb (Vaso.id w) id); simpl; lia.
Qed.

End SemVaso.

(** Typing a valid form and submitting it, from any state. *)
Lemma add_ok (s : AppState) (name location raw : JSString.t) (now : Z) :
  JSString.trim name <> [] -> JSString.trim location <> [] ->
  fold_left step (add name location raw now) s =
  {| vasos := Vaso.mk (Number_toString now) name location (parseFlores raw)
              :: vasos s;
     nomeVaso := []; localVaso := []; flores := [] |}.
Proof.
  intros Hn Hl. unfold add. simpl. unfold commit. simpl.
  rewrite submit_ok by (split; assumption). reflexivity.
Qed.

(** ** Uniqueness of identifiers, when the clock cooperates *)

(** A submit at a clock reading whose numeral is not yet an identifier
    keeps the identifiers pairwise distinct. *)
Lemma submit_NoDup (s : AppState) (now : Z) :
  ~ In (Number_toString now) (ids (vasos s)) ->
  NoDup (ids (vasos s)) -> NoDup (ids (vasos (submit s now))).
Proof.
  intros Hfresh Hnd. unfold submit, adicionarVaso.
  destruct (JSString.eqb (JSString.trim (nomeVaso s)) []
            || JSString.eqb (JSString.trim (localVaso s)) []); simpl.
  - exact Hnd.
  - constructor; assumption.
Qed.

Lemma remove_NoDup (id : JSString.t) (s : AppState) :
  NoDup (ids (vasos s)) -> NoDup (ids (vasos (remove id s))).
Proof.
  rewrite remove_eq. simpl. unfold ids, semVaso.
  induction (vasos s) as [|w l IH]; simpl; intros H; [constructor|].
  inversion H as [|x xs Hx Hxs]; subst.
  destruct (JSString.eqb (Vaso.id w) id); simpl; [now apply IH|].
  constructor; [|now apply IH].
  intros Hin. apply Hx. rewrite in_map_iff in *.
  destruct Hin as [v [Hv Hin]]. exists v. split; [exact Hv|].
  now apply filter_In in Hin.
Qed.

(** ** Scenarios *)

(** A submit with the name or the location empty or blank adds nothing. *)
Example rejects_missing_fields :
  map (fun e => vasos (run e))
    [add [] (JSString.lit "Sala") Rosa t0;
     add (JSString.lit "Vaso") [] Rosa t0;
     add [] [] [] t0;
     add (JSString.lit "   ") (JSString.lit "Sala") Rosa t0]
  = [[]; []; []; []].
Proof. reflexivity. Qed.

Example no_flowers_typed :
  map Vaso.flores
    (vasos (run (add (JSString.lit "Vaso 1") (JSString.lit "Sala") [] t0)))
  = [[]]
  /\ map Vaso.flores
       (vasos (run (add (JSString.lit "Vaso 1") (JSString.lit "Sala")
                      (JSString.lit "  ") t0)))
     = [[]].
Proof. split; reflexivity. Qed.

Example add_then_remove :
  let s := run (add (JSString.lit "Orquidea") (JSString.lit "Varanda")
                  (JSString.lit "Orquidea") t0) in
  vasos s
  = [Vaso.mk (Number_toString t0) (JSString.lit "Orquidea")
       (JSString.lit "Varanda") [JSString.lit "Orquidea"]]
  /\ vasos (remove (Number_toString t0) s) = []
  /\ vasos (cancelRemove (Number_toString t0) s) = vasos s.
Proof. repeat split; reflexivity. Qed.

(** * The claims *)

(** C1 (amended).  For a form whose name and location are non-empty after
    trimming, the submit prepends a record whose flowers are obtained from
    the raw text by splitting on commas and trimming each field, with no
    field discarded: if the raw text trims to empty the list is empty, and
    otherwise it has one token per comma-separated field (one more than
    there are commas).  Every stored token is trimmed, that is, has no
    white space at either end; it may be empty. *)
Theorem C1_flores_split_and_trimmed (s : AppState) (now : Z) (Hok : formOk s) :
  exists v,
    vasos (submit s now) = v :: vasos s
    /\ (JSString.trim (flores s) = [] -> Vaso.flores v = [])
    /\ (JSString.trim (flores s) <> [] ->
        Vaso.flores v
        = map JSString.trim (JSString.split JSString.comma (flores s))
        /\ List.length (Vaso.flores v)
           = S (count_occ N.eq_dec (flores s) JSString.comma))
    /\ (forall token, In token (Vaso.flores v) -> isTrimmed token = true).
Proof.
  exists (novoVaso s now). rewrite (submit_ok s now Hok). simpl.
  unfold parseFlores. split; [reflexivity|]. split; [|split].
  - intros ->. reflexivity.
  - intros Hne. destruct (JSString.trim (flores s)); [contradiction|]. simpl.
    split; [reflexivity|]. rewrite length_map. apply JSStringFacts.split_length.
  - intros token. destruct (JSString.toBoolean (JSString.trim (flores s)));
      [|intros []].
    rewrite in_map_iff. intros [field [<- _]].
    apply JSStringFacts.trim_isTrimmed.
Qed.

Lemma C1_flores_split_and_trimmed_witness :
  formOk formExemplo /\
  exists v,
    vasos (submit formExemplo t0) = [v]
    /\ Vaso.flores v = [Rosa; Lirio; []; Tulipa]
    /\ (forall token, In token (Vaso.flores v) -> isTrimmed token = true).
Proof.
  assert (H : formOk formExemplo) by (split; vm_compute; discriminate).
  split; [exact H|].
  destruct (C1_flores_split_and_trimmed formExemplo t0 H)
    as [v [Hv [_ [Hsplit Htrimmed]]]].
  exists v. split; [exact Hv|]. split; [|exact Htrimmed].
  destruct Hsplit as [Hsplit _]; [vm_compute; discriminate|].
  rewrite Hsplit. reflexivity.
Defined.

(** C1, as stated, fails on the example of the parsing rule: the empty
    field between the two commas is stored as an empty token. *)
Lemma C1_empty_token_is_kept :
  exists v,
    vasos (submit formExemplo t0) = [v]
    /\ Vaso.flores v = [Rosa; Lirio; []; Tulipa]
    /\ Vaso.flores v <> [Rosa; Lirio; Tulipa]
    /\ In [] (Vaso.flores v).
Proof.
  exists (novoVaso formExemplo t0).
  split; [reflexivity|]. split; [reflexivity|]. split.
  - vm_compute. discriminate.
  - vm_compute. tauto.
Qed.

(** C2 (the code breaks it).  A state reached by one add at the clock
    reading [t0], with the form filled in again, accepts a second add at
    the same reading; the identifier of the new record is then the one of
    the record already in the catalog, and the catalog holds two records
    with equal identifiers. *)
Theorem C2_same_clock_reading_repeats_id :
  let s := run segundoPreenchido in
  reachable s
  /\ alerted (adicionarVaso s t0) = false
  /\ In (Vaso.id (novoVaso s t0)) (ids (vasos s))
  /\ ids (vasos (submit s t0)) = [Number_toString t0; Number_toString t0]
  /\ ~ NoDup (ids (vasos (run doisNoMesmoInstante))).
Proof.
  split; [exists segundoPreenchido; reflexivity|].
  split; [reflexivity|]. split; [left; reflexivity|].
  split; [reflexivity|].
  intros H. inversion H as [|x xs Hx _]; subst. apply Hx. left. reflexivity.
Qed.

(** C3.  [adicionarVaso] rejects the form (shows the alert and stops)
    exactly when the name or the location is empty after trimming; what
    the flowers buffer holds never changes that; and a rejected submit
    leaves the whole state, the catalog included, as it was. *)
Theorem C3_rejects_iff_required_field_blank (s : AppState) (now : Z) :
  (alerted (adicionarVaso s now) = true
   <-> JSString.trim (nomeVaso s) = [] \/ JSString.trim (localVaso s) = [])
  /\ (forall raw,
        alerted (adicionarVaso (commit [setFlores raw] s) now)
        = alerted (adicionarVaso s now))
  /\ (alerted (adicionarVaso s now) = true -> submit s now = s).
Proof.
  split; [|split].
  - rewrite alerted_adicionarVaso. apply guard_true_iff.
  - intros raw. rewrite !alerted_adicionarVaso. reflexivity.
  - rewrite alerted_adicionarVaso, guard_true_iff. apply submit_rejected.
Qed.

(** C4.  Typing a valid form (name and location non-empty after trimming)
    and submitting it, from any state, prepends the new record to the
    catalog and lengthens it by one; after add(A) then add(B) the catalog
    is B, A, followed by the records that were there before, unchanged
    and in the same order. *)
Theorem C4_add_prepends_newest_first
  (s : AppState)
  (nameA locationA rawA : JSString.t) (tA : Z)
  (nameB locationB rawB : JSString.t) (tB : Z)
  (HnameA : JSString.trim nameA <> []) (HlocationA : JSString.trim locationA <> [])
  (HnameB : JSString.trim nameB <> []) (HlocationB : JSString.trim locationB <> []) :
  let recA := Vaso.mk (Number_toString tA) nameA locationA (parseFlores rawA) in
  let recB := Vaso.mk (Number_toString tB) nameB locationB (parseFlores rawB) in
  let s1 := fold_left step (add nameA locationA rawA tA) s in
  let s2 := fold_left step (add nameB locationB rawB tB) s1 in
  vasos s1 = recA :: vasos s
  /\ List.length (vasos s1) = S (List.length (vasos s))
  /\ vasos s2 = recB :: recA :: vasos s
  /\ List.length (vasos s2) = S (List.length (vasos s1)).
Proof.
  intros recA recB s1 s2. subst s2 s1.
  rewrite !add_ok by assumption. simpl. repeat split; reflexivity.
Qed.

Lemma C4_add_prepends_newest_first_witness :
  let recA := Vaso.mk (Number_toString t0) (JSString.lit "Vaso A")
                (JSString.lit "Sala") [Rosa] in
  let recB := Vaso.mk (Number_toString (t0 + 1)) (JSString.lit "Vaso B")
                (JSString.lit "Varanda") [Tulipa] in
  let s1 := run (add (JSString.lit "Vaso A") (JSString.lit "Sala") Rosa t0) in
  let s2 := fold_left step
              (add (JSString.lit "Vaso B") (JSString.lit "Varanda") Tulipa
                 (t0 + 1)) s1 in
  vasos s1 = [recA]
  /\ List.length (vasos s1) = 1%nat
  /\ vasos s2 = [recB; recA]
  /\ List.length (vasos s2) = S (List.length (vasos s1)).
Proof.
  apply (C4_add_prepends_newest_first initial
           (JSString.lit "Vaso A") (JSString.lit "Sala") Rosa t0
           (JSString.lit "Vaso B") (JSString.lit "Varanda") Tulipa (t0 + 1));
    vm_compute; discriminate.
Defined.

(** C5 (amended).  When exactly one record of the catalog carries the
    given identifier, a confirmed removal deletes that record and no
    other: the catalog is one shorter, the records before and after it
    keep their content and order, and the form buffers are untouched. *)
Theorem C5_remove_the_only_match
  (s : AppState) (id : JSString.t) (before after : list Vaso.t) (v : Vaso.t)
  (Hcat : vasos s = before ++ v :: after)
  (Hid : Vaso.id v = id)
  (Hbefore : forall w, In w before -> Vaso.id w <> id)
  (Hafter : forall w, In w after -> Vaso.id w <> id) :
  vasos (remove id s) = before ++ after
  /\ S (List.length (vasos (remove id s))) = List.length (vasos s)
  /\ buffers (remove id s) = buffers s.
Proof.
  rewrite remove_eq. simpl. rewrite Hcat.
  assert (E : semVaso id (before ++ v :: after) = before ++ after).
  { rewrite semVaso_app. simpl.
    replace (JSString.eqb (Vaso.id v) id) with true
      by (symmetry; apply JSStringFacts.eqb_eq, Hid).
    simpl. fold (semVaso id after).
    now rewrite !semVaso_absent by assumption. }
  rewrite E. split; [reflexivity|]. split; [|reflexivity].
  rewrite !length_app. simpl. lia.
Qed.

Lemma C5_remove_the_only_match_witness :
  let s := run tresVasos in
  let id := Number_toString (t0 + 1) in
  vasos (remove id s)
  = [Vaso.mk (Number_toString (t0 + 2)) (JSString.lit "Vaso C")
       (JSString.lit "Quarto") [];
     Vaso.mk (Number_toString t0) (JSString.lit "Vaso A")
       (JSString.lit "Sala") [Rosa]]
  /\ S (List.length (vasos (remove id s))) = List.length (vasos s)
  /\ buffers (remove id s) = buffers s.
Proof.
  apply (C5_remove_the_only_match (run tresVasos) (Number_toString (t0 + 1))
           [Vaso.mk (Number_toString (t0 + 2)) (JSString.lit "Vaso C")
              (JSString.lit "Quarto") []]
           [Vaso.mk (Number_toString t0) (JSString.lit "Vaso A")
              (JSString.lit "Sala") [Rosa]]
           (Vaso.mk (Number_toString (t0 + 1)) (JSString.lit "Vaso B")
              (JSString.lit "Varanda") [Tulipa])).
  - reflexivity.
  - reflexivity.
  - intros w [<-|[]]. vm_compute. discriminate.
  - intros w [<-|[]]. vm_compute. discriminate.
Defined.

(** C5, as stated, fails on a catalog the application can reach: after two
    adds at the same clock reading the catalog holds two records with the
    identifier, and one confirmed removal shortens it by two. *)
Lemma C5_two_matches_both_removed :
  let s := run doisNoMesmoInstante in
  let id := Number_toString t0 in
  reachable s
  /\ (exists v, In v (vasos s) /\ Vaso.id v = id)
  /\ List.length (vasos s) = 2%nat
  /\ List.length (vasos (remove id s)) = 0%nat
  /\ S (List.length (vasos (remove id s))) <> List.length (vasos s).
Proof.
  split; [exists doisNoMesmoInstante; reflexivity|].
  split.
  - eexists. split; [left; reflexivity|reflexivity].
  - split; [reflexivity|]. split; [reflexivity|]. vm_compute. discriminate.
Qed.

(** C6.  When no record of the catalog carries the given identifier, a
    confirmed removal changes nothing: the state after it is the state
    before it, and the confirmation shows no alert. *)
Theorem C6_remove_absent_is_noop
  (s : AppState) (id : JSString.t)
  (Habsent : forall v, In v (vasos s) -> Vaso.id v <> id) :
  remove id s = s /\ alerted (press 1 (removerVaso id)) = false.
Proof.
  split; [|reflexivity].
  rewrite remove_eq, (semVaso_absent id (vasos s) Habsent).
  destruct s; reflexivity.
Qed.

Lemma C6_remove_absent_is_noop_witness :
  remove (JSString.lit "42") (run tresVasos) = run tresVasos
  /\ alerted (press 1 (removerVaso (JSString.lit "42"))) = false.
Proof.
  apply (C6_remove_absent_is_noop (run tresVasos) (JSString.lit "42")).
  intros v [<-|[<-|[<-|[]]]]; vm_compute; discriminate.
Defined.

(** C7.  Removing twice in a row with the same identifier ends in the same
    state as removing once. *)
Theorem C7_remove_idempotent (s : AppState) (id : JSString.t) :
  remove id (remove id s) = remove id s.
Proof.
  rewrite !remove_eq. simpl. now rewrite semVaso_idempotent.
Qed.

(** C8.  A submit of a valid form (name and location not empty after
    trimming) shows no alert and leaves the three buffers empty; a submit
    of a form that is not valid shows the alert and leaves the three
    buffers exactly as they were. *)
Theorem C8_buffers_after_submit (s : AppState) (now : Z) :
  (formOk s ->
   alerted (adicionarVaso s now) = false
   /\ buffers (submit s now) = ([], [], []))
  /\ (~ formOk s ->
      alerted (adicionarVaso s now) = true
      /\ buffers (submit s now) = buffers s).
Proof.
  split.
  - intros Hok. rewrite alerted_adicionarVaso, (submit_ok s now Hok).
    split; [now apply guard_false_iff|reflexivity].
  - intros Hbad. rewrite alerted_adicionarVaso.
    destruct (JSString.eqb (JSString.trim (nomeVaso s)) []
              || JSString.eqb (JSString.trim (localVaso s)) []) eqn:G.
    + split; [reflexivity|]. apply guard_true_iff in G.
      now rewrite (submit_rejected s now G).
    + exfalso. apply Hbad. now apply guard_false_iff.
Qed.

Lemma C8_buffers_after_submit_witness :
  (formOk formExemplo
   /\ buffers formExemplo <> ([], [], [])
   /\ alerted (adicionarVaso formExemplo t0) = false
   /\ buffers (submit formExemplo t0) = ([], [], []))
  /\ (~ formOk formSemNome
      /\ buffers formSemNome <> ([], [], [])
      /\ alerted (adicionarVaso formSemNome t0) = true
      /\ buffers (submit formSemNome t0) = buffers formSemNome).
Proof.
  assert (Hok : formOk formExemplo) by (split; vm_compute; discriminate).
  assert (Hbad : ~ formOk formSemNome)
    by (intros [Hn _]; apply Hn; reflexivity).
  destruct (C8_buffers_after_submit formExemplo t0) as [Haccept _].
  destruct (C8_buffers_after_submit formSemNome t0) as [_ Hreject].
  split.
  - split; [exact Hok|]. split; [vm_compute; discriminate|exact (Haccept Hok)].
  - split; [exact Hbad|]. split; [vm_compute; discriminate|exact (Hreject Hbad)].
Defined.

(** C9.  The record created by an accepted submit holds the name and the
    location exactly as they are in the buffers, not their trimmed
    forms. *)
Theorem C9_name_location_stored_verbatim
  (s : AppState) (now : Z) (Hok : formOk s) :
  exists v,
    vasos (submit s now) = v :: vasos s
    /\ Vaso.nome v = nomeVaso s
    /\ Vaso.local v = localVaso s.
Proof.
  exists (novoVaso s now). rewrite (submit_ok s now Hok). simpl.
  repeat split; reflexivity.
Qed.

Lemma C9_name_location_stored_verbatim_witness :
  (formOk formEspacos
   /\ JSString.trim (nomeVaso formEspacos) <> nomeVaso formEspacos)
  /\ exists v,
       vasos (submit formEspacos t0) = v :: vasos formEspacos
       /\ Vaso.nome v = JSString.lit " Vaso "
       /\ Vaso.local v = JSString.lit " Sala ".
Proof.
  assert (H : formOk formEspacos) by (split; vm_compute; discriminate).
  split.
  - split; [exact H|]. vm_compute. discriminate.
  - exact (C9_name_location_stored_verbatim formEspacos t0 H).
Defined.

(** C10.  A confirmed removal deletes every record that carries the given
    identifier: none is left in the catalog, every record with another
    identifier stays, and the catalog is shorter by the number of records
    that carried the identifier, which may be more than one. *)
Theorem C10_remove_deletes_every_match (s : AppState) (id : JSString.t) :
  (forall v, In v (vasos (remove id s)) -> Vaso.id v <> id)
  /\ (forall v, In v (vasos s) -> Vaso.id v <> id -> In v (vasos (remove id s)))
  /\ (List.length (vasos (remove id s)) + countId id (vasos s))%nat
     = List.length (vasos s)
  /\ ((2 <= countId id (vasos s))%nat ->
      (List.length (vasos (remove id s)) + 2 <= List.length (vasos s))%nat).
Proof.
  rewrite remove_eq. simpl. split; [|split; [|split]].
  - intros v Hv. now apply semVaso_In in Hv.
  - intros v Hv Hne. apply semVaso_In. now split.
  - apply semVaso_length.
  - intros H. pose proof (semVaso_length id (vasos s)). lia.
Qed.

(** * Further properties of the handlers and of the list on screen *)

(** ** More on strings *)

Module JSStringMore.
Import JSString.

Lemma In_trimStart (c : N) (s : t) : In c (trimStart s) -> In c s.
Proof.
  induction s as [|x s IH]; simpl; [tauto|].
  destruct (isTrimmable x); [intros H; right; exact (IH H)|tauto].
Qed.

(** Trimming only removes code units. *)
Lemma In_trim (c : N) (s : t) : In c (trim s) -> In c s.
Proof.
  unfold trim, trimEnd. intros H.
  apply In_trimStart. apply in_rev in H. apply In_trimStart in H.
  now apply in_rev in H.
Qed.

Lemma trim_cons_trimmable (c : N) (s : t) :
  isTrimmable c = true -> trim (c :: s) = trim s.
Proof. intros H. unfold trim. simpl. now rewrite H. Qed.

Lemma isBlank_false_of_In (c : N) (s : t) :
  In c s -> isTrimmable c = false -> isBlank s = false.
Proof.
  intros Hin Hc. unfold isBlank.
  destruct (forallb isTrimmable s) eqn:E; [|reflexivity].
  rewrite forallb_forall in E. rewrite (E c Hin) in Hc. discriminate.
Qed.

Lemma isBlank_false_iff (s : t) : isBlank s = false <-> trim s <> [].
Proof.
  rewrite JSStringFacts.trim_nil_iff. destruct (isBlank s); split; congruence.
Qed.

Lemma toBoolean_trim (s : t) : toBoolean (trim s) = negb (isBlank s).
Proof.
  destruct (isBlank s) eqn:E.
  - apply JSStringFacts.trim_nil_iff in E. now rewrite E.
  - apply isBlank_false_iff in E. now destruct (trim s).
Qed.

Lemma split_sep_free (sep : N) (s : t) : ~ In sep s -> split sep s = [s].
Proof.
  induction s as [|c s IH]; simpl; intros H; [reflexivity|].
  destruct (N.eqb_spec c sep) as [->|Hne]; [exfalso; apply H; now left|].
  rewrite IH by tauto. reflexivity.
Qed.

Lemma split_app_sep (sep : N) (f r : t) :
  ~ In sep f -> split sep (f ++ sep :: r) = f :: split sep r.
Proof.
  induction f as [|c f IH]; simpl; intros H.
  - now rewrite N.eqb_refl.
  - destruct (N.eqb_spec c sep) as [->|Hne]; [exfalso; apply H; now left|].
    rewrite IH by tauto. reflexivity.
Qed.

(** Splitting a join of separator-free fields gives the fields back. *)
Lemma split_join (sep : N) (fields : list t) :
  fields <> [] -> (forall f, In f fields -> ~ In sep f) ->
  split sep (join sep fields) = fields.
Proof.
  induction fields as [|f rest IH]; intros Hne Hfree; [contradiction|].
  destruct rest as [|g rest].
  - simpl. apply split_sep_free, Hfree. now left.
  - change (join sep (f :: g :: rest)) with (f ++ sep :: join sep (g :: rest)).
    rewrite split_app_sep by (apply Hfree; now left).
    f_equal. apply IH; [discriminate|]. intros h Hh. apply Hfree. now right.
Qed.

Lemma join_app_head (sep : N) (pad f : t) (rest : list t) :
  join sep ((pad ++ f) :: rest) = pad ++ join sep (f :: rest).
Proof. destruct rest; simpl; [reflexivity|]. now rewrite <- app_assoc. Qed.

(** A join with a separator of several code units is a join on its first
    code unit, the rest of the separator leading every later field. *)
Lemma joinWith_cons_sep (sep : N) (pad f : t) (rest : list t) :
  joinWith (sep :: pad) (f :: rest) = join sep (f :: map (List.app pad) rest).
Proof.
  revert f; induction rest as [|g rest IH]; intros f; [reflexivity|].
  change (joinWith (sep :: pad) (f :: g :: rest))
    with (f ++ (sep :: pad) ++ joinWith (sep :: pad) (g :: rest)).
  rewrite IH. simpl map.
  change (join sep (f :: (pad ++ g) :: map (List.app pad) rest))
    with (f ++ sep :: join sep ((pad ++ g) :: map (List.app pad) rest)).
  rewrite join_app_head. reflexivity.
Qed.

Lemma In_join (sep c : N) (fields : list t) :
  In c (join sep fields) -> c = sep \/ exists f, In f fields /\ In c f.
Proof.
  induction fields as [|f rest IH]; [intros []|].
  destruct rest as [|g rest].
  - simpl. intros H. right. exists f. split; [now left|exact H].
  - change (join sep (f :: g :: rest)) with (f ++ sep :: join sep (g :: rest)).
    rewrite in_app_iff. intros [H|[H|H]].
    + right. exists f. split; [now left|exact H].
    + left. now symmetry.
    + destruct (IH H) as [E|[h [Hh Hc]]]; [now left|].
      right. exists h. split; [now right|exact Hc].
Qed.

End JSStringMore.

(** ** The flower list *)

Lemma parseFlores_eq (raw : JSString.t) :
  parseFlores raw
  = if isBlank raw then []
    else map JSString.trim (JSString.split JSString.comma raw).
Proof.
  unfold parseFlores. rewrite JSStringMore.toBoolean_trim.
  now destruct (isBlank raw).
Qed.

Lemma parseFlores_tokens (raw token : JSString.t) :
  In token (parseFlores raw) ->
  isTrimmed token = true /\ ~ In JSString.comma token.
Proof.
  rewrite parseFlores_eq. destruct (isBlank raw); [intros []|].
  rewrite in_map_iff. intros [field [<- Hfield]]. split.
  - apply JSStringFacts.trim_isTrimmed.
  - intros Hc. apply JSStringMore.In_trim in Hc.
    exact (JSStringFacts.split_no_sep _ _ _ Hfield Hc).
Qed.

(** A text that is not blank never parses to the one empty token. *)
Lemma parseFlores_not_single_empty (raw : JSString.t) :
  parseFlores raw <> [[]].
Proof.
  rewrite parseFlores_eq. destruct (isBlank raw) eqn:Hb; [discriminate|].
  intros H.
  pose proof (JSStringFacts.join_split JSString.comma raw) as Hj.
  destruct (JSString.split JSString.comma raw) as [|f [|g fs]];
    simpl in H; try discriminate.
  simpl in Hj. subst f. injection H as H.
  apply JSStringFacts.trim_nil_iff in H. congruence.
Qed.

(** Typing the tokens back, joined as the row shows them, parses to the
    same tokens. *)
Lemma parseFlores_joinWith (tokens : list JSString.t) :
  tokens <> [[]] ->
  (forall token, In token tokens ->
     isTrimmed token = true /\ ~ In JSString.comma token) ->
  parseFlores (joinWith (JSString.lit ", ") tokens) = tokens.
Proof.
  intros Hne Hok. destruct tokens as [|f rest]; [reflexivity|].
  change (JSString.lit ", ") with (JSString.comma :: [0x20]).
  rewrite JSStringMore.joinWith_cons_sep, parseFlores_eq.
  assert (Hfree : forall g, In g (f :: map (List.app [0x20]) rest) ->
                            ~ In JSString.comma g).
  { intros g [<-|Hg]; [apply Hok; now left|].
    apply in_map_iff in Hg as [h [<- Hh]].
    intros [E|Hc]; [discriminate|]. apply (Hok h); [now right|exact Hc]. }
  assert (Hnb : isBlank (join JSString.comma (f :: map (List.app [0x20]) rest))
                = false).
  { destruct rest as [|g rest].
    - simpl. apply JSStringMore.isBlank_false_iff.
      rewrite JSStringFacts.trim_of_trimmed by (apply Hok; now left).
      intros ->. now apply Hne.
    - apply (JSStringMore.isBlank_false_of_In JSString.comma); [|reflexivity].
      simpl map.
      change (join JSString.comma (f :: ([0x20] ++ g) :: map (List.app [0x20]) rest))
        with (f ++ JSString.comma
                :: join JSString.comma (([0x20] ++ g) :: map (List.app [0x20]) rest)).
      apply in_or_app. right. now left. }
  rewrite Hnb, JSStringMore.split_join by (discriminate || exact Hfree).
  simpl map. f_equal.
  - apply JSStringFacts.trim_of_trimmed, Hok. now left.
  - rewrite map_map. rewrite <- (map_id rest) at 2. apply map_ext_in.
    intros g Hg. simpl.
    rewrite JSStringMore.trim_cons_trimmable by reflexivity.
    apply JSStringFacts.trim_of_trimmed, Hok. now right.
Qed.

(** X1.  The form is rejected exactly when the name or the location is
    blank, that is, made only of white space and line terminators (the
    empty string included). *)
Theorem X1_rejected_iff_blank (s : AppState) (now : Z) :
  alerted (adicionarVaso s now) = isBlank (nomeVaso s) || isBlank (localVaso s).
Proof.
  rewrite alerted_adicionarVaso, !JSStringFacts.eqb_nil_r,
    !JSStringMore.toBoolean_trim, !negb_involutive.
  reflexivity.
Qed.

(** X4.  The flower list of a new record is empty exactly when the
    flowers text is blank; any other text, a lone comma included, gives at
    least one token. *)
Theorem X4_no_flowers_iff_blank (s : AppState) (now : Z) :
  (Vaso.flores (novoVaso s now) = [] <-> isBlank (flores s) = true)
  /\ Vaso.flores (novoVaso (commit [setFlores [JSString.comma]] s) now)
     = [[]; []].
Proof.
  split; [|reflexivity].
  simpl. rewrite parseFlores_eq. destruct (isBlank (flores s)) eqn:E.
  - tauto.
  - split; [|discriminate]. intros H. apply map_eq_nil in H.
    now apply JSStringFacts.split_not_nil in H.
Qed.

(** X5.  The flowers line of a row, typed back into the flowers field,
    parses to the flower list it was made from. *)
Theorem X5_flores_display_parse_round_trip (raw : JSString.t) :
  parseFlores (joinWith (JSString.lit ", ") (parseFlores raw)) = parseFlores raw.
Proof.
  apply parseFlores_joinWith.
  - apply parseFlores_not_single_empty.
  - intros token. apply parseFlores_tokens.
Qed.

(** ** What every run keeps *)

(** What one event does to the catalog: nothing, a prepend of the record
    of a valid form, or a filter. *)
Lemma step_catalog (s : AppState) (e : Event) :
  vasos (step s e) = vasos s
  \/ (exists now, e = PressAdicionar now /\ formOk s
                  /\ vasos (step s e) = novoVaso s now :: vasos s)
  \/ (exists id, vasos (step s e) = semVaso id (vasos s)).
Proof.
  destruct e as [text|text|text|now|id|id]; simpl;
    try (left; reflexivity).
  - unfold submit, adicionarVaso.
    destruct (JSString.eqb (JSString.trim (nomeVaso s)) []
              || JSString.eqb (JSString.trim (localVaso s)) []) eqn:G.
    + left. reflexivity.
    + right. left. exists now. apply guard_false_iff in G. auto.
  - right. right. exists id. reflexivity.
Qed.

Lemma In_ids_semVaso (id x : JSString.t) (catalog : list Vaso.t) :
  In x (ids (semVaso id catalog)) -> In x (ids catalog).
Proof.
  unfold ids. rewrite !in_map_iff. intros [v [Hv Hin]].
  exists v. split; [exact Hv|]. now apply semVaso_In in Hin.
Qed.

Section RunInvariant.

Variable P : Vaso.t -> Prop.
Hypothesis P_novoVaso : forall s now, formOk s -> P (novoVaso s now).

Lemma step_Forall (s : AppState) (e : Event) :
  Forall P (vasos s) -> Forall P (vasos (step s e)).
Proof.
  intros H.
  destruct (step_catalog s e) as [E|[[now [_ [Hok E]]]|[id E]]]; rewrite E.
  - exact H.
  - constructor; [now apply P_novoVaso|exact H].
  - rewrite Forall_forall in *. intros v Hv. apply H.
    now apply semVaso_In in Hv.
Qed.

Lemma fold_step_Forall (events : list Event) (s : AppState) :
  Forall P (vasos s) -> Forall P (vasos (fold_left step events s)).
Proof.
  revert s; induction events as [|e events IH]; intros s H; [exact H|].
  simpl. apply IH, step_Forall, H.
Qed.

End RunInvariant.

Lemma fold_step_ids (events : list Event) (s : AppState) :
  incl (ids (vasos (fold_left step events s)))
       (ids (vasos s) ++ map Number_toString (readings events)).
Proof.
  revert s; induction events as [|e events IH]; intros s x Hx.
  - simpl in *. rewrite app_nil_r. exact Hx.
  - simpl in Hx. apply IH in Hx. apply in_app_or in Hx as [Hx|Hx].
    + destruct (step_catalog s e) as [E|[[now [-> [_ E]]]|[id E]]];
        rewrite E in Hx.
      * apply in_or_app. now left.
      * simpl in Hx. destruct Hx as [<-|Hx]; apply in_or_app.
        -- right. now left.
        -- now left.
      * apply in_or_app. left. exact (In_ids_semVaso _ _ _ Hx).
    + apply in_or_app. right. destruct e; simpl; auto.
Qed.

Lemma fold_step_NoDup (events : list Event) (s : AppState) :
  NoDup (ids (vasos s)) -> NoDup (readings events) ->
  (forall t, In t (readings events) ->
     ~ In (Number_toString t) (ids (vasos s))) ->
  NoDup (ids (vasos (fold_left step events s))).
Proof.
  revert s; induction events as [|e events IH]; intros s Hs Hr Hfresh;
    [exact Hs|].
  destruct e as [text|text|text|now|id|id];
    try (simpl in *; apply IH; assumption).
  - simpl in Hr, Hfresh. inversion Hr as [|x xs Hnow Hrest]; subst.
    simpl. apply IH; [|exact Hrest|].
    + apply submit_NoDup; [|exact Hs]. apply Hfresh. now left.
    + intros t Ht Hin.
      destruct (step_catalog s (PressAdicionar now))
        as [E|[[now' [En [_ E]]]|[id E]]]; simpl in E; rewrite E in Hin.
      * apply (Hfresh t); [now right|exact Hin].
      * injection En as <-. simpl in Hin. destruct Hin as [Hin|Hin].
        -- apply Number_toString_inj in Hin. subst t. contradiction.
        -- apply (Hfresh t); [now right|exact Hin].
      * apply In_ids_semVaso in Hin. apply (Hfresh t); [now right|exact Hin].
  - simpl in *. apply IH; [|exact Hr|].
    + apply (remove_NoDup id s Hs).
    + intros t Ht Hin. apply In_ids_semVaso in Hin. exact (Hfresh t Ht Hin).
Qed.

Lemma fold_step_length (events : list Event) (s : AppState) :
  (List.length (vasos (fold_left step events s))
   <= List.length (vasos s) + List.length (readings events))%nat.
Proof.
  revert s; induction events as [|e events IH]; intros s; [simpl; lia|].
  simpl fold_left. specialize (IH (step s e)).
  destruct (step_catalog s e) as [E|[[now [-> [_ E]]]|[id E]]];
    rewrite E in IH.
  - destruct e; simpl in *; lia.
  - simpl in *. lia.
  - pose proof (semVaso_length id (vasos s)). destruct e; simpl in *; lia.
Qed.

(** X2.  Whatever the user does, every record in the catalog has a name
    and a location that are not blank. *)
Theorem X2_catalog_names_never_blank (events : list Event) :
  Forall nomeadoOk (vasos (run events)).
Proof.
  apply fold_step_Forall; [|constructor].
  intros s now [Hn Hl]. split; simpl; now apply JSStringMore.isBlank_false_iff.
Qed.

(** X3.  Whatever the user does, every flower token of every record in
    the catalog is trimmed and contains no comma. *)
Theorem X3_catalog_tokens_trimmed_no_comma (events : list Event) :
  Forall floresOk (vasos (run events)).
Proof.
  apply fold_step_Forall; [|constructor].
  intros s now _ token. simpl. apply parseFlores_tokens.
Qed.

(** X6.  Every id in the catalog is the decimal numeral of the clock
    reading at one of the presses of "Adicionar Vaso". *)
Theorem X6_ids_are_clock_readings (events : list Event) :
  incl (ids (vasos (run events))) (map Number_toString (readings events)).
Proof. exact (fold_step_ids events initial). Qed.

(** X7.  If the clock readings at the presses of "Adicionar Vaso" are
    pairwise distinct, the ids of the catalog (the keys of the list on
    screen) are pairwise distinct. *)
Theorem X7_distinct_readings_distinct_ids
  (events : list Event) (Hclock : NoDup (readings events)) :
  NoDup (map keyExtractor (vasos (run events))).
Proof.
  apply (fold_step_NoDup events initial); [constructor|exact Hclock|].
  intros t _ [].
Qed.

Lemma X7_distinct_readings_distinct_ids_witness :
  NoDup (readings tresVasos)
  /\ NoDup (map keyExtractor (vasos (run tresVasos))).
Proof.
  assert (H : NoDup (readings tresVasos)).
  { vm_compute. repeat constructor; simpl; intuition discriminate. }
  split; [exact H|]. exact (X7_distinct_readings_distinct_ids tresVasos H).
Defined.

(** X8.  Two new records get the same id exactly when the clock read the
    same millisecond at their creation. *)
Theorem X8_same_id_iff_same_reading (s s' : AppState) (a b : Z) :
  Vaso.id (novoVaso s a) = Vaso.id (novoVaso s' b) <-> a = b.
Proof.
  simpl. split; [apply Number_toString_inj|now intros ->].
Qed.

(** X9.  The catalog never holds more records than "Adicionar Vaso" was
    pressed. *)
Theorem X9_catalog_bounded_by_presses (events : list Event) :
  (List.length (vasos (run events)) <= List.length (readings events))%nat.
Proof. exact (fold_step_length events initial). Qed.

(** ** Removal, again *)

Lemma semVaso_comm (a b : JSString.t) (catalog : list Vaso.t) :
  semVaso a (semVaso b catalog) = semVaso b (semVaso a catalog).
Proof.
  unfold semVaso. induction catalog as [|v catalog IH]; [reflexivity|].
  simpl.
  destruct (JSString.eqb (Vaso.id v) a) eqn:Ea,
           (JSString.eqb (Vaso.id v) b) eqn:Eb;
    simpl; rewrite ?Ea, ?Eb; simpl; now rewrite IH.
Qed.

Lemma countId_pos (id : JSString.t) (v : Vaso.t) (catalog : list Vaso.t) :
  In v catalog -> Vaso.id v = id -> (1 <= countId id catalog)%nat.
Proof.
  intros Hin Hid. unfold countId.
  assert (H : In v (filter (fun vaso => JSString.eqb (Vaso.id vaso) id) catalog))
    by (apply filter_In; split; [exact Hin|now apply JSStringFacts.eqb_eq]).
  destruct (filter _ catalog); [destruct H|simpl; lia].
Qed.

(** X10.  Two confirmed removals give the same state in either order. *)
Theorem X10_removals_commute (a b : JSString.t) (s : AppState) :
  remove a (remove b s) = remove b (remove a s).
Proof.
  rewrite !remove_eq. simpl. now rewrite semVaso_comm.
Qed.

(** X11.  Adding a record whose id is not yet in the catalog and then
    removing that id gives the catalog back as it was. *)
Theorem X11_add_then_remove_restores_catalog
  (s : AppState) (now : Z)
  (Hok : formOk s)
  (Hfresh : ~ In (Number_toString now) (ids (vasos s))) :
  vasos (remove (Number_toString now) (submit s now)) = vasos s.
Proof.
  rewrite remove_eq, (submit_ok s now Hok). simpl.
  rewrite JSStringFacts.eqb_refl. simpl. apply semVaso_absent.
  intros v Hv E. apply Hfresh. rewrite <- E. unfold ids. now apply in_map.
Qed.

Lemma X11_add_then_remove_restores_catalog_witness :
  let s := fold_left step
             [ChangeNome (JSString.lit "Vaso D"); ChangeLocal (JSString.lit "Hall")]
             (run tresVasos) in
  List.length (vasos s) = 3%nat
  /\ vasos (remove (Number_toString (t0 + 3)) (submit s (t0 + 3))) = vasos s.
Proof.
  split; [reflexivity|].
  apply X11_add_then_remove_restores_catalog.
  - split; vm_compute; discriminate.
  - vm_compute. intuition discriminate.
Defined.

(** X12.  Opening the removal dialog changes nothing, and neither does
    any answer to it other than the second button ("Sim, Remover"). *)
Theorem X12_only_confirmation_removes
  (id : JSString.t) (s : AppState) (k : nat) (Hk : k <> 1%nat) :
  commit (removerVaso id) s = s
  /\ commit (press k (removerVaso id)) (commit (removerVaso id) s) = s.
Proof.
  split; [reflexivity|].
  destruct k as [|[|[|k]]]; [reflexivity|contradiction|reflexivity|reflexivity].
Qed.

Lemma X12_only_confirmation_removes_witness :
  commit (removerVaso (Number_toString t0)) (run tresVasos) = run tresVasos
  /\ commit (press 0 (removerVaso (Number_toString t0)))
       (commit (removerVaso (Number_toString t0)) (run tresVasos))
     = run tresVasos.
Proof.
  apply (X12_only_confirmation_removes (Number_toString t0) (run tresVasos) 0).
  discriminate.
Defined.

(** ** The rows *)

Lemma textsOf_vasoFlores (item : Vaso.t) :
  textsOf "vasoFlores" (renderItem item)
  = match Vaso.flores item with
    | [] => []
    | _ :: _ =>
        [JSString.lit "Flores: "
         ++ joinWith (JSString.lit ", ") (Vaso.flores item)]
    end.
Proof. unfold renderItem. destruct (Vaso.flores item); reflexivity. Qed.

Lemma pressables_renderItem (item : Vaso.t) :
  pressables (renderItem item) = [removerVaso (Vaso.id item)].
Proof. unfold renderItem. destruct (Vaso.flores item); reflexivity. Qed.

Lemma FlatList_In (key : JSString.t) (row : Element) (data : list Vaso.t) :
  In (Some key, row) (FlatList data)
  <-> exists item, In item data /\ key = Vaso.id item /\ row = renderItem item.
Proof.
  destruct data as [|v data].
  - simpl. split; [intros [H|[]]; discriminate|intros [item [[] _]]].
  - unfold FlatList. rewrite in_map_iff. split.
    + intros [item [E Hin]]. injection E as <- <-. now exists item.
    + intros [item [Hin [-> ->]]]. now exists item.
Qed.

(** X13.  The row of a new record has a flowers line exactly when the
    flowers text was not blank; the line then lists every token, the
    empty ones too, joined by a comma and a space. *)
Theorem X13_flowers_line_iff_not_blank (s : AppState) (now : Z) :
  textsOf "vasoFlores" (renderItem (novoVaso s now))
  = if isBlank (flores s) then []
    else [JSString.lit "Flores: "
          ++ joinWith (JSString.lit ", ")
               (map JSString.trim (JSString.split JSString.comma (flores s)))].
Proof.
  rewrite textsOf_vasoFlores. simpl Vaso.flores. rewrite parseFlores_eq.
  destruct (isBlank (flores s)); [reflexivity|].
  pose proof (JSStringFacts.split_not_nil JSString.comma (flores s)) as H.
  destruct (JSString.split JSString.comma (flores s)); [contradiction|].
  reflexivity.
Qed.

(** X14.  Pressing the button of a row that is on screen and confirming
    takes every row with that key off the screen, shortens the catalog,
    and leaves the form buffers alone. *)
Theorem X14_row_button_removes_row
  (s : AppState) (key : JSString.t) (row : Element) (handler : list Cmd)
  (Hrow : In (Some key, row) (FlatList (vasos s)))
  (Hbutton : In handler (pressables row)) :
  let s' := commit (press 1 handler) (commit handler s) in
  (forall row', ~ In (Some key, row') (FlatList (vasos s')))
  /\ (List.length (vasos s') < List.length (vasos s))%nat
  /\ buffers s' = buffers s.
Proof.
  apply FlatList_In in Hrow as [item [Hin [-> ->]]].
  rewrite pressables_renderItem in Hbutton.
  destruct Hbutton as [<-|[]].
  change (commit (press 1 (removerVaso (Vaso.id item)))
            (commit (removerVaso (Vaso.id item)) s))
    with (remove (Vaso.id item) s).
  cbv zeta. rewrite remove_eq. simpl. split; [|split; [|reflexivity]].
  - intros row' H. apply FlatList_In in H as [w [Hw [E _]]].
    apply semVaso_In in Hw. symmetry in E. now destruct Hw.
  - pose proof (semVaso_length (Vaso.id item) (vasos s)).
    pose proof (countId_pos (Vaso.id item) item (vasos s) Hin eq_refl). lia.
Qed.

Lemma X14_row_button_removes_row_witness :
  let s := run tresVasos in
  let key := Number_toString t0 in
  let item := Vaso.mk key (JSString.lit "Vaso A") (JSString.lit "Sala") [Rosa] in
  let s' := commit (press 1 (removerVaso key)) (commit (removerVaso key) s) in
  (forall row', ~ In (Some key, row') (FlatList (vasos s')))
  /\ (List.length (vasos s') < List.length (vasos s))%nat
  /\ buffers s' = buffers s.
Proof.
  apply (X14_row_button_removes_row (run tresVasos) (Number_toString t0)
           (renderItem (Vaso.mk (Number_toString t0) (JSString.lit "Vaso A")
                          (JSString.lit "Sala") [Rosa]))
           (removerVaso (Number_toString t0))).
  - right. right. left. reflexivity.
  - left. reflexivity.
Defined.

(** ** Pressing twice *)

(** X15.  A second press of "Adicionar Vaso" right after a first one is
    always rejected and changes nothing: an accepted submit has emptied
    the name, and a rejected one has left the blank field blank. *)
Theorem X15_second_press_is_rejected (s : AppState) (now now' : Z) :
  alerted (adicionarVaso (submit s now) now') = true
  /\ submit (submit s now) now' = submit s now.
Proof.
  assert (H : JSString.trim (nomeVaso (submit s now)) = []
              \/ JSString.trim (localVaso (submit s now)) = []).
  { unfold submit, adicionarVaso.
    destruct (JSString.eqb (JSString.trim (nomeVaso s)) []
              || JSString.eqb (JSString.trim (localVaso s)) []) eqn:G.
    - apply guard_true_iff in G. exact G.
    - left. reflexivity. }
  split.
  - rewrite alerted_adicionarVaso. now apply guard_true_iff.
  - now apply submit_rejected.
Qed.
